(** * COVID-19 dashboard (app.py): filtering, snapshot and number formatting

    A shallow embedding of the data logic of [app.py]:
    the boolean-mask filter of the data frame ([filtered_df]), the latest
    global row ([global_data]), the date of the header ([last_updated]),
    the number formatter ([format_num]), the mortality card
    ([mortality]), the summary cards ([summary_cards]) and the frames
    handed to the charts.

    Numeric cells are pandas [float64] values.  They are modelled by the
    IEEE 754 binary64 specification of the Standard Library ([spec_float]
    with precision 53 and maximal exponent 1024), so that divisions,
    comparisons and the [.2f] / [,.0f] renderings compute exactly what
    CPython and NumPy compute. *)

From Stdlib Require Import ZArith List Bool Ascii String Sorted Lia.
From Stdlib Require Import DecimalString.
From Stdlib Require SpecFloat DecimalN DecimalPos.
From stdpp Require Import base list.

Import ListNotations.
Local Open Scope Z_scope.
Local Open Scope string_scope.

(** ** binary64 numbers *)

Module Float64.

Definition prec : Z := 53.
Definition emax : Z := 1024.

Definition float64 : Type := SpecFloat.spec_float.

Definition nan : float64 := SpecFloat.S754_nan.

(** Conversion of a Python [int] operand (exact below 2^53). *)
Definition of_Z (z : Z) : float64 :=
  SpecFloat.binary_normalize prec emax z 0 false.

Definition div (x y : float64) : float64 := SpecFloat.SFdiv prec emax x y.
Definition mul (x y : float64) : float64 := SpecFloat.SFmul prec emax x y.

(** [x >= y]; any comparison with NaN is [False]. *)
Definition ge (x y : float64) : bool := SpecFloat.SFleb y x.

Definition isna (x : float64) : bool :=
  match x with SpecFloat.S754_nan => true | _ => false end.

Definition is_finite (x : float64) : bool :=
  match x with
  | SpecFloat.S754_zero _ | SpecFloat.S754_finite _ _ _ => true
  | _ => false
  end.

Definition signbit (x : float64) : bool :=
  match x with
  | SpecFloat.S754_zero s | SpecFloat.S754_infinity s
  | SpecFloat.S754_finite s _ _ => s
  | SpecFloat.S754_nan => false
  end.

(** *** Fixed-point rendering: the format specs [.Nf] and [,.Nf] *)

(** Nearest integer to [num / den] ([den > 0]), ties to even. *)
Definition round_half_even (num den : Z) : Z :=
  let q := num / den in
  match 2 * (num mod den) ?= den with
  | Lt => q
  | Eq => if Z.even q then q else q + 1
  | Gt => q + 1
  end.

(** [m * 2^e * 10^p] rounded to an integer: the digits that the
    correctly rounded conversion prints for the magnitude of a finite
    float. *)
Definition scaled_digits (p : nat) (m : positive) (e : Z) : Z :=
  let n := Z.pos m * 10 ^ Z.of_nat p in
  match e with
  | Z.neg k => round_half_even n (2 ^ Z.pos k)
  | _ => n * 2 ^ e
  end.

Definition decimal (n : Z) : string :=
  NilZero.string_of_uint (N.to_uint (Z.to_N n)).

(** Thousands separators, inserted from the right; [rds] holds the
    digits in reverse and [i] counts the digits of the current group. *)
Fixpoint group_rev (rds : list ascii) (i : nat) : list ascii :=
  match rds with
  | [] => []
  | d :: rest =>
      match i with
      | 3%nat => ","%char :: d :: group_rev rest 1
      | _ => d :: group_rev rest (S i)
      end
  end.

Definition group_thousands (s : string) : string :=
  string_of_list_ascii
    (List.rev (group_rev (List.rev (list_ascii_of_string s)) 0)).

Fixpoint zeros (n : nat) : string :=
  match n with
  | O => ""
  | S k => "0" ++ zeros k
  end.

Definition pad_left (p : nat) (s : string) : string :=
  zeros (p - String.length s) ++ s.

(** Magnitude [n / 10^p] written with [p] decimals. *)
Definition fixed (grouping : bool) (p : nat) (n : Z) : string :=
  let scale := 10 ^ Z.of_nat p in
  let ip := decimal (n / scale) in
  let ip := if grouping then group_thousands ip else ip in
  match p with
  | O => ip
  | _ => ip ++ "." ++ pad_left p (decimal (n mod scale))
  end.

Definition sign_prefix (s : bool) : string := if s then "-" else "".

(** [format(x, ".pf")] and, with [grouping], [format(x, ",.pf")]. *)
Definition format_f (grouping : bool) (p : nat) (x : float64) : string :=
  match x with
  | SpecFloat.S754_nan => "nan"
  | SpecFloat.S754_infinity s => sign_prefix s ++ "inf"
  | SpecFloat.S754_zero s => sign_prefix s ++ fixed grouping p 0
  | SpecFloat.S754_finite s m e =>
      sign_prefix s ++ fixed grouping p (scaled_digits p m e)
  end.

End Float64.

Import Float64.

(** ** The data frame *)

(** A cell of the [date] column after [pd.to_datetime]: a timestamp in
    nanoseconds since the epoch, or [NaT] for a missing value. *)
Inductive datetime : Type :=
  | NaT
  | Timestamp (ns : Z).

(** The timestamp of a calendar day, [days] after 1970-01-01. *)
Definition midnight (days : Z) : Z := days * 86400000000000.

(** One row of the table, with the columns the dashboard reads.  A
    missing metric is the float NaN. *)
Record Row : Type := mkRow {
  iso_code : string;
  location : string;
  date : datetime;
  total_cases : float64;
  new_cases : float64;
  new_cases_smoothed : float64;
  total_deaths : float64;
  new_deaths : float64;
  total_vaccinations : float64;
  people_fully_vaccinated_per_hundred : float64;
  new_tests_per_thousand : float64;
  positive_rate : float64
}.

Definition DataFrame : Type := list Row.

(** A raised Python exception, identified by the name of its class. *)
Inductive exn : Type :=
  | Raised (cls : string).

(** The exception of an out-of-bounds positional access. *)
Definition IndexError : exn := Raised "IndexError".

Definition result (A : Type) : Type := (exn + A)%type.

Module Pandas.

(** [series.isin(values)] on one cell. *)
Definition isin (x : string) (values : list string) : bool :=
  existsb (String.eqb x) values.

(** [cell >= ts] and [cell <= ts]; [NaT] compares false. *)
Definition ge_ts (d : datetime) (ts : Z) : bool :=
  match d with
  | NaT => false
  | Timestamp n => (ts <=? n)%Z
  end.

Definition le_ts (d : datetime) (ts : Z) : bool :=
  match d with
  | NaT => false
  | Timestamp n => (n <=? ts)%Z
  end.

Definition eq_ts (d1 d2 : datetime) : bool :=
  match d1, d2 with
  | Timestamp n1, Timestamp n2 => (n1 =? n2)%Z
  | _, _ => false
  end.

(** [df.loc[mask]] and [df[mask]]: the rows whose mask entry is true,
    in their order.  Every mask of the program is computed from the
    frame it selects from, so the two always have the same length. *)
Fixpoint loc (df : DataFrame) (mask : list bool) : DataFrame :=
  match df, mask with
  | r :: df', b :: mask' => if b then r :: loc df' mask' else loc df' mask'
  | _, _ => []
  end.

(** [df.iloc[-1]]: the last row; out of bounds on an empty frame. *)
Fixpoint iloc_last (df : DataFrame) : result Row :=
  match df with
  | [] => inl IndexError
  | [r] => inr r
  | _ :: rest => iloc_last rest
  end.

(** [series.max()] on the date column: missing values are skipped. *)
Definition max_ts (d1 d2 : datetime) : datetime :=
  match d1, d2 with
  | NaT, d | d, NaT => d
  | Timestamp n1, Timestamp n2 => Timestamp (Z.max n1 n2)
  end.

Definition date_max (df : DataFrame) : datetime :=
  fold_right (fun r acc => max_ts (date r) acc) NaT df.

(** [series.unique()]: first occurrences, in order of appearance. *)
Fixpoint unique (l : list string) : list string :=
  match l with
  | [] => []
  | x :: rest => x :: List.filter (fun y => negb (String.eqb x y)) (unique rest)
  end.

(** [df.dropna(subset=cols)]: drops every row with a missing value in
    one of the columns [cols]. *)
Definition dropna (subset : list (Row -> float64)) (df : DataFrame)
  : DataFrame :=
  List.filter (fun r => forallb (fun col => negb (isna (col r))) subset) df.

End Pandas.

(** [sorted(xs)] on strings. *)
Fixpoint insert_sorted (x : string) (l : list string) : list string :=
  match l with
  | [] => [x]
  | y :: rest => if String.leb x y then x :: l else y :: insert_sorted x rest
  end.

Definition sorted (l : list string) : list string :=
  fold_right insert_sorted [] l.

(** ** The dashboard's data logic *)

(** [locations = sorted(df['location'].unique())] *)
Definition locations (df : DataFrame) : list string :=
  sorted (Pandas.unique (List.map location df)).

(** The mask of the filter: one boolean per row. *)
Definition mask (df : DataFrame) (selected_countries : list string)
    (date_start date_end : Z) : list bool :=
  List.map
    (fun r =>
       Pandas.isin (location r) selected_countries
       && Pandas.ge_ts (date r) date_start
       && Pandas.le_ts (date r) date_end)
    df.

(** [filtered_df = df.loc[mask]] *)
Definition filtered_df (df : DataFrame) (selected_countries : list string)
    (date_start date_end : Z) : DataFrame :=
  Pandas.loc df (mask df selected_countries date_start date_end).

(** [latest_date = df['date'].max()] *)
Definition latest_date (df : DataFrame) : datetime := Pandas.date_max df.

(** [global_data = df[df['location'] == 'World'].iloc[-1]] *)
Definition global_data (df : DataFrame) : result Row :=
  Pandas.iloc_last
    (Pandas.loc df (List.map (fun r => String.eqb (location r) "World") df)).

Definition format_num (num : float64) : string :=
  if ge num (of_Z 1000000000) then
    format_f false 2 (div num (of_Z 1000000000)) ++ "B"
  else if ge num (of_Z 1000000) then
    format_f false 2 (div num (of_Z 1000000)) ++ "M"
  else format_f true 0 num.

(** [mortality = (total_deaths / total_cases) * 100] *)
Definition mortality (g : Row) : float64 :=
  mul (div (total_deaths g) (total_cases g)) (of_Z 100).

(** The headline of the fourth card, [f"{mortality:.2f}%"]. *)
Definition mortality_card (g : Row) : string :=
  format_f false 2 (mortality g) ++ "%".

(** The exception of [NaT.strftime]. *)
Definition ValueError : exn := Raised "ValueError".

(** Year, month and day of the calendar day that lies [days] days after
    1970-01-01. *)
Definition civil_from_days (days : Z) : Z * Z * Z :=
  let z := days + 719468 in
  let era := z / 146097 in
  let doe := z - era * 146097 in
  let yoe := (doe - doe / 1460 + doe / 36524 - doe / 146096) / 365 in
  let doy := doe - (365 * yoe + yoe / 4 - yoe / 100) in
  let mp := (5 * doy + 2) / 153 in
  let d := doy - (153 * mp + 2) / 5 + 1 in
  let m := if (mp <? 10)%Z then mp + 3 else mp - 9 in
  let y := yoe + era * 400 + (if (m <=? 2)%Z then 1 else 0) in
  (y, m, d).

Definition month_name (m : Z) : string :=
  match m with
  | 1 => "January" | 2 => "February" | 3 => "March" | 4 => "April"
  | 5 => "May" | 6 => "June" | 7 => "July" | 8 => "August"
  | 9 => "September" | 10 => "October" | 11 => "November"
  | _ => "December"
  end.

(** [ts.strftime("%B %d, %Y")]; [NaT] does not support [strftime]. *)
Definition strftime_B_d_Y (ts : datetime) : result string :=
  match ts with
  | NaT => inl ValueError
  | Timestamp ns =>
      let '(y, m, d) := civil_from_days (ns / 86400000000000) in
      inr (month_name m ++ " " ++ pad_left 2 (decimal d) ++ ", " ++ decimal y)
  end.

(** The date of the header, [latest_date.strftime("%B %d, %Y")]. *)
Definition last_updated (df : DataFrame) : result string :=
  strftime_B_d_Y (latest_date df).

(** The headlines of the four summary cards.  The script looks up the
    global row, then writes the header, then the cards; neither of the
    first two steps is guarded, so the exception of either one stops
    the script before any card. *)
Definition summary_cards (df : DataFrame) : result (list string) :=
  match global_data df with
  | inl e => inl e
  | inr g =>
      match last_updated df with
      | inl e => inl e
      | inr _ =>
          inr [format_num (total_cases g); format_num (total_deaths g);
               format_num (total_vaccinations g); mortality_card g]
      end
  end.

(** [map_df = df[df['date'] == latest_date]] *)
Definition map_df (df : DataFrame) : DataFrame :=
  Pandas.loc df (List.map (fun r => Pandas.eq_ts (date r) (latest_date df)) df).

(** [latest_selection]: the selected countries at the latest date. *)
Definition latest_selection (df : DataFrame) (selected_countries : list string)
    : DataFrame :=
  Pandas.loc df
    (List.map
       (fun r =>
          Pandas.isin (location r) selected_countries
          && Pandas.eq_ts (date r) (latest_date df))
       df).

(** The frame given to [px.scatter]:
    [filtered_df.dropna(subset=['new_tests_per_thousand', 'positive_rate'])] *)
Definition fig_test_data (df : DataFrame) (selected_countries : list string)
    (date_start date_end : Z) : DataFrame :=
  Pandas.dropna [new_tests_per_thousand; positive_rate]
    (filtered_df df selected_countries date_start date_end).

(** ** Vocabulary of the properties *)

(** The date of a row lies in the closed interval [[s, e]]. *)
Definition in_interval (d : datetime) (s e : Z) : Prop :=
  exists n, d = Timestamp n /\ s <= n <= e.

Definition missing (x : float64) : Prop := x = nan.

(** The failure kind that the specification names for an absent
    aggregate row; no operation of the program raises it. *)
Definition NotFoundError : exn := Raised "NotFoundError".

(** A row built from its location, date and the two cumulative counts;
    the other metrics are missing. *)
Definition row_of (loc : string) (d : datetime) (cases deaths : float64) : Row :=
  mkRow "" loc d cases nan nan deaths nan nan nan nan nan.

(** The selection restricted to the names that occur in the data set. *)
Definition known_locations (df : DataFrame) (sel : list string) : list string :=
  List.filter (fun x => Pandas.isin x (locations df)) sel.

(** ** Sample rows *)

Definition day_2021_01_01 : Z := midnight 18628.
Definition day_2021_06_01 : Z := midnight 18779.

Definition world_jan : Row :=
  row_of "World" (Timestamp day_2021_01_01) (of_Z 1000) (of_Z 50).
Definition world_jun : Row :=
  row_of "World" (Timestamp day_2021_06_01) (of_Z 2000) (of_Z 80).
Definition india_jan : Row :=
  row_of "India" (Timestamp day_2021_01_01) (of_Z 300) (of_Z 5).

Definition sample_df : DataFrame := [world_jan; india_jan; world_jun].


(** The two global rows, the newer one first. *)
Definition newest_first_df : DataFrame := [world_jun; world_jan].

(** The rows of the aggregate location, in the order of the frame. *)
Definition world_rows (df : DataFrame) : DataFrame :=
  List.filter (fun r => String.eqb (location r) "World") df.

(** [r1] is dated no later than [r2]. *)
Definition date_le (r1 r2 : Row) : Prop :=
  match date r1, date r2 with
  | Timestamp n1, Timestamp n2 => n1 <= n2
  | _, _ => False
  end.

(** A string made of exactly two decimal digits. *)
Definition is_digit (c : ascii) : bool :=
  (48 <=? nat_of_ascii c)%nat && (nat_of_ascii c <=? 57)%nat.

Definition two_digits (s : string) : bool :=
  match s with
  | String a (String b EmptyString) => is_digit a && is_digit b
  | _ => false
  end.

(** ** The bounds of the date picker *)

(** [series.min()] on the date column: missing values are skipped. *)
Definition min_ts (d1 d2 : datetime) : datetime :=
  match d1, d2 with
  | NaT, d | d, NaT => d
  | Timestamp n1, Timestamp n2 => Timestamp (Z.min n1 n2)
  end.

(** [df['date'].min()], the lower bound and first default of the picker;
    its upper bound and second default is [latest_date]. *)
Definition earliest_date (df : DataFrame) : datetime :=
  fold_right (fun r acc => min_ts (date r) acc) NaT df.

(** ** More vocabulary *)

(** The order of [sorted] on strings. *)
Definition str_le (a b : string) : Prop := String.leb a b = true.

(** The magnitude of the cell [x] is the integer [k]. *)
Definition integer_value (x : float64) (k : Z) : Prop :=
  match x with
  | SpecFloat.S754_zero _ => k = 0
  | SpecFloat.S754_finite _ m e =>
      if (e <? 0)%Z then Z.pos m = k * 2 ^ (- e) else k = Z.pos m * 2 ^ e
  | _ => False
  end.

(** The cell 999999.5, the least value below the first threshold that is
    rounded up to a million. *)
Definition just_below_million : float64 := div (of_Z 1999999) (of_Z 2).

(** A frame whose rows are neither in date order nor all dated. *)
Definition undated_india : Row := row_of "India" NaT (of_Z 7) (of_Z 0).

Definition mixed_df : DataFrame :=
  [world_jun; india_jan; undated_india; world_jan].

(** The number written by a string of decimal digits. *)
Definition read_decimal (s : string) : option Z :=
  match NilZero.uint_of_string s with
  | Some d => Some (Z.of_N (N.of_uint d))
  | None => None
  end.

(** [n] is the integer nearest to a hundred times the magnitude of the
    finite cell [x]; of two nearest integers it is the even one. *)
Definition nearest_hundredths (x : float64) (n : Z) : Prop :=
  match x with
  | SpecFloat.S754_zero _ => n = 0
  | SpecFloat.S754_finite _ m e =>
      if (e <? 0)%Z then
        2 * Z.abs (n * 2 ^ (- e) - 100 * Z.pos m) <= 2 ^ (- e) /\
        (2 * Z.abs (n * 2 ^ (- e) - 100 * Z.pos m) = 2 ^ (- e) ->
         Z.even n = true)
      else n = 100 * Z.pos m * 2 ^ e
  | _ => False
  end.

(** A global row without a date. *)
Definition undated_world : Row := row_of "World" NaT (of_Z 1000) (of_Z 50).

(** ** Boolean masks and the operations of the frame *)

Section MaskLemmas.

Lemma loc_map (p : Row -> bool) (df : DataFrame) :
  Pandas.loc df (List.map p df) = List.filter p df.
Proof.
  induction df as [|r df IH]; simpl; [reflexivity|].
  rewrite IH. reflexivity.
Qed.

Lemma filter_sublist (p : Row -> bool) (df : DataFrame) :
  sublist (List.filter p df) df.
Proof.
  induction df as [|r df IH]; simpl.
  - constructor.
  - destruct (p r); constructor; exact IH.
Qed.

Lemma elem_of_filter (p : Row -> bool) (df : DataFrame) (r : Row) :
  r ∈ List.filter p df <-> r ∈ df /\ p r = true.
Proof.
  rewrite !list_elem_of_In. apply filter_In.
Qed.

Lemma isin_elem_of (x : string) (values : list string) :
  Pandas.isin x values = true <-> x ∈ values.
Proof.
  unfold Pandas.isin. rewrite existsb_exists. split.
  - intros (y & Hy & Heq). apply String.eqb_eq in Heq. subst y.
    apply list_elem_of_In. exact Hy.
  - intros H. exists x. split.
    + apply list_elem_of_In. exact H.
    + apply String.eqb_refl.
Qed.

Lemma between_in_interval (d : datetime) (s e : Z) :
  Pandas.ge_ts d s && Pandas.le_ts d e = true <-> in_interval d s e.
Proof.
  unfold in_interval. destruct d as [|n]; simpl.
  - split; [discriminate|]. intros (n & Hn & _). discriminate.
  - rewrite andb_true_iff, !Z.leb_le. split.
    + intros H. exists n. split; [reflexivity | lia].
    + intros (m & Hm & Hle). injection Hm as ->. lia.
Qed.

Lemma filtered_df_filter (df : DataFrame) (sel : list string) (s e : Z) :
  filtered_df df sel s e =
  List.filter
    (fun r => Pandas.isin (location r) sel
              && Pandas.ge_ts (date r) s && Pandas.le_ts (date r) e) df.
Proof. unfold filtered_df, mask. apply loc_map. Qed.

End MaskLemmas.

(** C1: the filtered view is a subsequence of the data set (same rows,
    same order, the data set itself untouched), and a row of the data set
    is in the view exactly when its location is selected and its date
    lies in the closed interval, both end points included. *)
Theorem filtered_df_subsequence_exact
    (df : DataFrame) (sel : list string) (s e : Z) :
  sublist (filtered_df df sel s e) df /\
  (forall r, r ∈ filtered_df df sel s e <->
             r ∈ df /\ location r ∈ sel /\ in_interval (date r) s e) /\
  (forall r n, r ∈ df -> location r ∈ sel -> date r = Timestamp n ->
               (n = s \/ n = e) -> s <= e -> r ∈ filtered_df df sel s e).
Proof.
  assert (Hmem : forall r, r ∈ filtered_df df sel s e <->
             r ∈ df /\ location r ∈ sel /\ in_interval (date r) s e).
  { intros r. rewrite filtered_df_filter, elem_of_filter.
    rewrite <- andb_assoc, andb_true_iff, isin_elem_of, between_in_interval.
    tauto. }
  split; [|split].
  - rewrite filtered_df_filter. apply filter_sublist.
  - exact Hmem.
  - intros r n Hr Hsel Hd Hn Hse. apply Hmem. repeat split; try assumption.
    exists n. split; [assumption | lia].
Qed.

Lemma filtered_df_subsequence_exact_witness :
  india_jan ∈ filtered_df sample_df ["India"] day_2021_01_01 day_2021_06_01.
Proof.
  apply (proj2 (proj2 (filtered_df_subsequence_exact
                         sample_df ["India"] day_2021_01_01 day_2021_06_01))
           india_jan day_2021_01_01).
  - apply list_elem_of_In. simpl. auto.
  - apply list_elem_of_In. simpl. auto.
  - reflexivity.
  - left. reflexivity.
  - vm_compute. discriminate.
Defined.

Lemma filter_none {A : Type} (p : A -> bool) (l : list A) :
  (forall x, p x = false) -> List.filter p l = [].
Proof.
  intros Hp. induction l as [|x l IH]; simpl; [reflexivity|].
  rewrite Hp. exact IH.
Qed.

Lemma filter_none_in {A : Type} (p : A -> bool) (l : list A) :
  (forall x, In x l -> p x = false) -> List.filter p l = [].
Proof.
  intros Hp. induction l as [|x l IH]; simpl; [reflexivity|].
  rewrite (Hp x (or_introl eq_refl)). apply IH.
  intros y Hy. apply Hp. right. exact Hy.
Qed.

(** C6: an empty selection gives the empty view, and so does an inverted
    interval; the view is a plain frame in both cases, no exception. *)
Theorem filtered_df_empty_selection_or_inverted
    (df : DataFrame) (sel : list string) (s e : Z) :
  filtered_df df [] s e = [] /\
  (s > e -> filtered_df df sel s e = []).
Proof.
  split.
  - rewrite filtered_df_filter. apply filter_none. intros r. reflexivity.
  - intros Hse. rewrite filtered_df_filter. apply filter_none. intros r.
    rewrite <- andb_assoc. apply andb_false_intro2.
    destruct (date r) as [|n]; simpl; [reflexivity|].
    apply andb_false_iff. rewrite !Z.leb_gt. lia.
Qed.

Lemma filtered_df_empty_selection_or_inverted_witness :
  day_2021_06_01 > day_2021_01_01 /\
  filtered_df sample_df ["World"; "India"] day_2021_06_01 day_2021_01_01 = [].
Proof.
  split.
  - reflexivity.
  - apply (proj2 (filtered_df_empty_selection_or_inverted
                    sample_df ["World"; "India"] day_2021_06_01 day_2021_01_01)).
    reflexivity.
Defined.

(** ** The list of selectable locations *)

Section Locations.

Lemma in_insert_sorted (x y : string) (l : list string) :
  In y (insert_sorted x l) <-> y = x \/ In y l.
Proof.
  induction l as [|z l IH]; simpl.
  - intuition congruence.
  - destruct (String.leb x z); simpl; [intuition congruence|].
    rewrite IH. intuition congruence.
Qed.

Lemma in_sorted (y : string) (l : list string) : In y (sorted l) <-> In y l.
Proof.
  induction l as [|x l IH]; simpl; [reflexivity|].
  rewrite in_insert_sorted, IH. intuition congruence.
Qed.

Lemma in_unique (y : string) (l : list string) :
  In y (Pandas.unique l) <-> In y l.
Proof.
  induction l as [|x l IH]; simpl; [reflexivity|].
  rewrite filter_In, IH, negb_true_iff.
  destruct (String.eqb_spec x y) as [->|Hne]; intuition congruence.
Qed.

Lemma location_in_locations (df : DataFrame) (r : Row) :
  In r df -> In (location r) (locations df).
Proof.
  intros Hr. unfold locations. apply in_sorted, in_unique.
  apply in_map. exact Hr.
Qed.

Lemma isin_In (x : string) (values : list string) :
  Pandas.isin x values = true <-> In x values.
Proof. rewrite isin_elem_of. apply list_elem_of_In. Qed.

Lemma isin_known_locations (df : DataFrame) (sel : list string) (r : Row) :
  In r df ->
  Pandas.isin (location r) (known_locations df sel)
  = Pandas.isin (location r) sel.
Proof.
  intros Hr. apply eq_true_iff_eq. rewrite !isin_In.
  unfold known_locations. rewrite filter_In, isin_In.
  pose proof (location_in_locations df r Hr). tauto.
Qed.

(** The mask only looks at the locations of the rows of the frame. *)
Lemma filtered_df_selection_ext
    (df : DataFrame) (sel sel' : list string) (s e : Z) :
  (forall r, In r df ->
             Pandas.isin (location r) sel = Pandas.isin (location r) sel') ->
  filtered_df df sel s e = filtered_df df sel' s e.
Proof.
  intros Hext. unfold filtered_df, mask. f_equal.
  apply map_ext_in. intros r Hr. rewrite (Hext r Hr). reflexivity.
Qed.

End Locations.

(** C10: names of the selection that do not occur in the data set are
    harmless: filtering by the selection and filtering by its part that
    occurs in the data set give the same view, and adding a name that
    occurs nowhere changes nothing. *)
Theorem filtered_df_unknown_locations
    (df : DataFrame) (sel : list string) (s e : Z) :
  s <= e ->
  filtered_df df sel s e = filtered_df df (known_locations df sel) s e /\
  (forall x, ~ In x (locations df) ->
             filtered_df df (x :: sel) s e = filtered_df df sel s e).
Proof.
  intros _. split.
  - apply filtered_df_selection_ext. intros r Hr.
    symmetry. apply isin_known_locations. exact Hr.
  - intros x Hx. apply filtered_df_selection_ext. intros r Hr.
    simpl. destruct (String.eqb_spec (location r) x) as [Heq|Hne].
    + exfalso. apply Hx. rewrite <- Heq. apply location_in_locations, Hr.
    + reflexivity.
Qed.

Lemma filtered_df_unknown_locations_witness :
  day_2021_01_01 <= day_2021_06_01 /\
  filtered_df sample_df ["India"; "Atlantis"] day_2021_01_01 day_2021_06_01
  = filtered_df sample_df (known_locations sample_df ["India"; "Atlantis"])
      day_2021_01_01 day_2021_06_01.
Proof.
  split.
  - vm_compute. discriminate.
  - refine (proj1 (filtered_df_unknown_locations
                     sample_df ["India"; "Atlantis"]
                     day_2021_01_01 day_2021_06_01 _)).
    vm_compute. discriminate.
Defined.

(** ** The frame of the testing scatter chart *)

Lemma isna_missing (x : float64) : isna x = true <-> missing x.
Proof.
  unfold missing, nan. destruct x; simpl; split; congruence.
Qed.

(** C8: the scatter chart receives the filtered view without the rows
    whose tests-per-thousand or positivity rate is missing; every other
    row of the view is kept, in place. *)
Theorem fig_test_data_exact
    (df : DataFrame) (sel : list string) (s e : Z) :
  fig_test_data df sel s e
  = List.filter
      (fun r => negb (isna (new_tests_per_thousand r) || isna (positive_rate r)))
      (filtered_df df sel s e) /\
  sublist (fig_test_data df sel s e) (filtered_df df sel s e) /\
  (forall r, r ∈ fig_test_data df sel s e <->
             r ∈ filtered_df df sel s e /\
             ~ missing (new_tests_per_thousand r) /\
             ~ missing (positive_rate r)).
Proof.
  unfold fig_test_data, Pandas.dropna. split; [|split].
  - apply filter_ext. intros r. simpl.
    rewrite andb_true_r, negb_orb. reflexivity.
  - apply filter_sublist.
  - intros r. rewrite elem_of_filter. simpl.
    rewrite andb_true_r, andb_true_iff, !negb_true_iff.
    rewrite <- !isna_missing, !not_true_iff_false. tauto.
Qed.

(** ** The latest global row *)

Section GlobalData.

Lemma global_data_world_rows (df : DataFrame) :
  global_data df = Pandas.iloc_last (world_rows df).
Proof. unfold global_data, world_rows. rewrite loc_map. reflexivity. Qed.

Lemma iloc_last_snoc (l : DataFrame) (r : Row) :
  Pandas.iloc_last (l ++ [r])%list = inr r.
Proof.
  induction l as [|x l IH]; simpl; [reflexivity|].
  rewrite IH. destruct (l ++ [r])%list eqn:E; [|reflexivity].
  destruct l; discriminate.
Qed.

Lemma iloc_last_error (l : DataFrame) (e : exn) :
  Pandas.iloc_last l = inl e <-> l = [] /\ e = IndexError.
Proof.
  split.
  - induction l as [|x l IH].
    + simpl. intros H. injection H as <-. split; reflexivity.
    + simpl. destruct l as [|y l]; [discriminate|].
      intros H. destruct (IH H) as [Hnil _]. discriminate.
  - intros [-> ->]. reflexivity.
Qed.

(** The lookup is positional: it returns the global row that comes last
    in the frame, whatever the dates are. *)
Lemma global_data_last_world (pre post : DataFrame) (r : Row) :
  location r = "World" -> world_rows post = [] ->
  global_data (pre ++ r :: post)%list = inr r.
Proof.
  intros Hr Hpost. rewrite global_data_world_rows. unfold world_rows in *.
  rewrite List.filter_app. simpl. rewrite Hr, Hpost. simpl.
  apply iloc_last_snoc.
Qed.

Lemma iloc_last_In (l : DataFrame) (g : Row) :
  Pandas.iloc_last l = inr g -> In g l.
Proof.
  induction l as [|x l IH]; [discriminate|].
  destruct l as [|y l].
  - simpl. intros H. injection H as <-. left. reflexivity.
  - intros H. right. apply IH. exact H.
Qed.

Lemma iloc_last_sorted_max (l : DataFrame) (g : Row) :
  StronglySorted date_le l -> Pandas.iloc_last l = inr g ->
  forall r, In r l -> r = g \/ date_le r g.
Proof.
  induction 1 as [|x l Hs IH Hall]; intros Hg r Hr; [destruct Hr|].
  destruct l as [|y l].
  - simpl in Hg. injection Hg as <-. destruct Hr as [->|[]].
    left. reflexivity.
  - assert (Hg' : Pandas.iloc_last (y :: l) = inr g) by exact Hg.
    destruct Hr as [<-|Hr].
    + right. rewrite List.Forall_forall in Hall. apply Hall.
      apply iloc_last_In. exact Hg'.
    + apply IH; assumption.
Qed.

(** When the global rows appear in date order, the row returned is the
    one with the greatest date. *)
Lemma global_data_sorted_max (df : DataFrame) (g : Row) :
  StronglySorted date_le (world_rows df) -> global_data df = inr g ->
  forall r, In r df -> location r = "World" -> r = g \/ date_le r g.
Proof.
  intros Hs Hg r Hr Hw. rewrite global_data_world_rows in Hg.
  apply (iloc_last_sorted_max _ _ Hs Hg).
  unfold world_rows. apply filter_In. split; [exact Hr|].
  rewrite Hw. reflexivity.
Qed.

End GlobalData.

(** C2: on a frame that lists the global row of 2021-06-01 before the one
    of 2021-01-01, the lookup returns the row of 2021-01-01, although the
    latest date of the frame is 2021-06-01; with the two rows in date
    order it returns the row of 2021-06-01. *)
Theorem global_data_newest_first :
  global_data newest_first_df = inr world_jan /\
  latest_date newest_first_df = Timestamp day_2021_06_01 /\
  date world_jan = Timestamp day_2021_01_01 /\
  global_data [world_jan; world_jun] = inr world_jun.
Proof. repeat split. Qed.

(** C3 (as amended): on a data set without a row of the location "World"
    the lookup of the global row fails with the IndexError of the
    positional access on the empty selection; no row is made up, and the
    summary cards fail with the same exception. *)
Theorem global_data_no_world (df : DataFrame) :
  (forall r, r ∈ df -> location r <> "World") ->
  global_data df = inl IndexError /\ summary_cards df = inl IndexError.
Proof.
  intros Hno.
  assert (Hg : global_data df = inl IndexError).
  { rewrite global_data_world_rows. apply iloc_last_error.
    split; [|reflexivity].
    unfold world_rows. apply filter_none_in. intros r Hr.
    apply String.eqb_neq. apply Hno. apply list_elem_of_In. exact Hr. }
  split; [exact Hg|]. unfold summary_cards. rewrite Hg. reflexivity.
Qed.

Lemma global_data_no_world_witness :
  global_data [india_jan] = inl IndexError /\
  summary_cards [india_jan] = inl IndexError.
Proof.
  apply (global_data_no_world [india_jan]).
  intros r Hr. apply list_elem_of_In in Hr. destruct Hr as [<-|[]].
  vm_compute. discriminate.
Defined.

(** The failure on a data set without the aggregate row is the IndexError
    of the positional access, not the NotFoundError of the specification. *)
Lemma global_data_no_world_not_NotFoundError :
  (forall r, r ∈ [india_jan] -> location r <> "World") /\
  global_data [india_jan] = inl IndexError /\
  global_data [india_jan] <> inl NotFoundError.
Proof.
  split; [|split].
  - intros r Hr. apply list_elem_of_In in Hr. destruct Hr as [<-|[]].
    vm_compute. discriminate.
  - reflexivity.
  - vm_compute. discriminate.
Qed.

(** ** Number formatting *)

Section Formatting.

Lemma of_Z_million :
  of_Z 1000000 = SpecFloat.S754_finite false 8589934592000000 (-33).
Proof. reflexivity. Qed.

Lemma of_Z_billion :
  of_Z 1000000000 = SpecFloat.S754_finite false 8388608000000000 (-23).
Proof. reflexivity. Qed.

Lemma of_Z_hundred :
  of_Z 100 = SpecFloat.S754_finite false 7036874417766400 (-46).
Proof. reflexivity. Qed.

(** A value that reaches the first threshold reaches the second. *)
Lemma ge_billion_ge_million (n : float64) :
  ge n (of_Z 1000000000) = true -> ge n (of_Z 1000000) = true.
Proof.
  rewrite of_Z_million, of_Z_billion. unfold ge, SpecFloat.SFleb.
  destruct n as [s|s| |s m e].
  - destruct s; discriminate.
  - destruct s; [discriminate | reflexivity].
  - discriminate.
  - destruct s; unfold SpecFloat.SFcompare; cbv beta iota; [discriminate|].
    destruct (Z.compare_spec (-23) e) as [He|He|He];
      destruct (Z.compare_spec (-33) e) as [He'|He'|He'];
      try lia; try discriminate; try reflexivity.
Qed.

Lemma negative_below_thresholds (x : float64) (k : float64) :
  signbit x = true -> signbit k = false -> is_finite k = true ->
  k <> SpecFloat.S754_zero false -> ge x k = false.
Proof.
  unfold ge, SpecFloat.SFleb.
  destruct k as [sk|sk| |sk mk ek]; simpl; try discriminate;
    intros Hx Hk _ Hnz; subst.
  - congruence.
  - destruct x as [s|s| |s m e]; simpl in Hx; subst; try discriminate;
      reflexivity.
Qed.

Lemma append_assoc (a b c : string) : (a ++ b) ++ c = a ++ (b ++ c).
Proof.
  induction a as [|ch a IH]; simpl; [reflexivity|].
  rewrite IH. reflexivity.
Qed.

Lemma pad_two_digits_table :
  forallb (fun j => two_digits (pad_left 2 (decimal (Z.of_nat j))))
          (List.seq 0 100) = true.
Proof. vm_compute. reflexivity. Qed.

Lemma pad_two_digits (k : Z) :
  0 <= k < 100 -> two_digits (pad_left 2 (decimal k)) = true.
Proof.
  intros Hk. pose proof pad_two_digits_table as Htab.
  rewrite forallb_forall in Htab.
  specialize (Htab (Z.to_nat k)). rewrite Z2Nat.id in Htab by lia.
  apply Htab. apply in_seq. lia.
Qed.

Lemma fixed_two_decimals (n : Z) :
  exists ip frac,
    fixed false 2 n = ip ++ "." ++ frac /\ two_digits frac = true.
Proof.
  exists (decimal (n / 100)), (pad_left 2 (decimal (n mod 100))).
  split; [reflexivity|]. apply pad_two_digits.
  apply Z.mod_pos_bound. lia.
Qed.

(** A finite value is written with exactly two decimals. *)
Lemma format_f_two_decimals (x : float64) :
  is_finite x = true ->
  exists ip frac,
    format_f false 2 x = sign_prefix (signbit x) ++ ip ++ "." ++ frac /\
    two_digits frac = true.
Proof.
  destruct x as [s|s| |s m e]; try discriminate; intros _.
  - destruct (fixed_two_decimals 0) as (ip & frac & Heq & Hd).
    exists ip, frac. split; [|exact Hd].
    unfold format_f. rewrite Heq. reflexivity.
  - destruct (fixed_two_decimals (scaled_digits 2 m e))
      as (ip & frac & Heq & Hd).
    exists ip, frac. split; [|exact Hd].
    unfold format_f. rewrite Heq. reflexivity.
Qed.

End Formatting.

(** C4: the formatter thresholds its argument: from 1e9 on it writes the
    quotient by 1e9 with two decimals and the suffix B, from 1e6 up to 1e9
    the quotient by 1e6 with two decimals and the suffix M, and below 1e6
    the value rounded to an integer with thousands separators; 999 gives
    "999", 1_500_000 gives "1.50M", 2_300_000_000 gives "2.30B" and 0
    gives "0". *)
Theorem format_num_thresholds (n : float64) :
  (ge n (of_Z 1000000000) = true ->
   format_num n = format_f false 2 (div n (of_Z 1000000000)) ++ "B") /\
  (ge n (of_Z 1000000) = true -> ge n (of_Z 1000000000) = false ->
   format_num n = format_f false 2 (div n (of_Z 1000000)) ++ "M") /\
  (ge n (of_Z 1000000) = false -> format_num n = format_f true 0 n) /\
  format_num (of_Z 999) = "999" /\
  format_num (of_Z 1500000) = "1.50M" /\
  format_num (of_Z 2300000000) = "2.30B" /\
  format_num (of_Z 0) = "0" /\
  format_num (of_Z 999999) = "999,999" /\
  format_num (of_Z 1000000) = "1.00M" /\
  format_num (of_Z 1000000000) = "1.00B".
Proof.
  split; [|split; [|split]].
  - intros H. unfold format_num. rewrite H. reflexivity.
  - intros H6 H9. unfold format_num. rewrite H9, H6. reflexivity.
  - intros H6. unfold format_num. rewrite H6.
    destruct (ge n (of_Z 1000000000)) eqn:H9; [|reflexivity].
    apply ge_billion_ge_million in H9. congruence.
  - repeat split; vm_compute; reflexivity.
Qed.

Lemma format_num_thresholds_witness :
  format_num (of_Z 7000000000)
  = format_f false 2 (div (of_Z 7000000000) (of_Z 1000000000)) ++ "B" /\
  format_num (of_Z 7000000)
  = format_f false 2 (div (of_Z 7000000) (of_Z 1000000)) ++ "M" /\
  format_num (of_Z 7000) = format_f true 0 (of_Z 7000).
Proof.
  split; [|split].
  - apply (proj1 (format_num_thresholds (of_Z 7000000000))). reflexivity.
  - apply (proj1 (proj2 (format_num_thresholds (of_Z 7000000)))); reflexivity.
  - apply (proj1 (proj2 (proj2 (format_num_thresholds (of_Z 7000))))).
    reflexivity.
Defined.

(** C5: the formatter is defined on negative numbers and on missing
    values: NaN is written as the fixed text "nan", and a negative number
    as a minus sign followed by the grouped rendering of its magnitude. *)
Theorem format_num_negative_nan (x : float64) :
  (missing x -> format_num x = "nan") /\
  (signbit x = true ->
   format_num x = "-" ++ format_f true 0 (SpecFloat.SFabs x)) /\
  format_num (of_Z (-1234567)) = "-1,234,567" /\
  format_num (SpecFloat.S754_infinity true) = "-inf".
Proof.
  split; [|split; [|split; vm_compute; reflexivity]].
  - intros ->. reflexivity.
  - intros Hneg. unfold format_num.
    rewrite (negative_below_thresholds x (of_Z 1000000000) Hneg);
      [|reflexivity|reflexivity|discriminate].
    rewrite (negative_below_thresholds x (of_Z 1000000) Hneg);
      [|reflexivity|reflexivity|discriminate].
    destruct x as [s|s| |s m e]; simpl in Hneg; subst; try discriminate;
      reflexivity.
Qed.

Lemma format_num_negative_nan_witness :
  format_num nan = "nan" /\
  format_num (of_Z (-42)) = "-" ++ format_f true 0 (SpecFloat.SFabs (of_Z (-42))).
Proof.
  split.
  - apply (proj1 (format_num_negative_nan nan)). reflexivity.
  - apply (proj1 (proj2 (format_num_negative_nan (of_Z (-42))))). reflexivity.
Defined.

(** ** The mortality card *)

Section Header.

Lemma strftime_B_d_Y_ok (ns : Z) :
  exists text, strftime_B_d_Y (Timestamp ns) = inr text.
Proof.
  unfold strftime_B_d_Y.
  destruct (civil_from_days (ns / 86400000000000)) as [[y m] d].
  eexists. reflexivity.
Qed.

Lemma last_updated_ok (df : DataFrame) (d : Z) :
  latest_date df = Timestamp d -> exists text, last_updated df = inr text.
Proof. intros Hd. unfold last_updated. rewrite Hd. apply strftime_B_d_Y_ok. Qed.

Lemma last_updated_error (df : DataFrame) (e : exn) :
  last_updated df = inl e <-> latest_date df = NaT /\ e = ValueError.
Proof.
  unfold last_updated. destruct (latest_date df) as [|ns]; simpl.
  - split.
    + intros H. injection H as <-. split; reflexivity.
    + intros [_ ->]. reflexivity.
  - destruct (strftime_B_d_Y_ok ns) as (text & Htext).
    simpl in Htext. rewrite Htext. split; [discriminate|].
    intros [H _]. discriminate.
Qed.

Lemma summary_cards_dated (df : DataFrame) (g : Row) (d : Z) :
  global_data df = inr g -> latest_date df = Timestamp d ->
  summary_cards df
  = inr [format_num (total_cases g); format_num (total_deaths g);
         format_num (total_vaccinations g); mortality_card g].
Proof.
  intros Hg Hd. unfold summary_cards. rewrite Hg.
  destruct (last_updated_ok df d Hd) as (text & ->). reflexivity.
Qed.

End Header.

(** C7: on the frame that lists the global row of 2021-06-01 before the
    one of 2021-01-01 the mortality card shows "5.00%", the rate of the
    row of 2021-01-01 (50 deaths for 1000 cases), whereas the latest
    snapshot, the row of 2021-06-01, has the rate "4.00%"; with the two
    rows in date order the card shows "4.00%". *)
Theorem mortality_card_not_latest_snapshot :
  summary_cards newest_first_df = inr ["1,000"; "50"; "nan"; "5.00%"] /\
  In world_jun newest_first_df /\ location world_jun = "World" /\
  date world_jun = latest_date newest_first_df /\
  mortality_card world_jun = "4.00%" /\
  mortality_card world_jan = "5.00%" /\
  summary_cards [world_jan; world_jun] = inr ["2,000"; "80"; "nan"; "4.00%"].
Proof.
  split; [reflexivity|]. split; [simpl; auto|].
  repeat split.
Qed.



(** * Further properties of the data logic *)

(** ** Earliest and latest date *)

Section DateBounds.

Lemma date_max_upper (df : DataFrame) (r : Row) (n : Z) :
  In r df -> date r = Timestamp n ->
  exists m, Pandas.date_max df = Timestamp m /\ n <= m.
Proof.
  induction df as [|x df IH]; intros Hr Hd; [destruct Hr|].
  simpl. destruct Hr as [->|Hr].
  - rewrite Hd. destruct (Pandas.date_max df) as [|k]; simpl.
    + exists n. split; [reflexivity | lia].
    + exists (Z.max n k). split; [reflexivity | lia].
  - destruct (IH Hr Hd) as (m & Hm & Hle). rewrite Hm.
    destruct (date x) as [|k]; simpl.
    + exists m. split; [reflexivity | exact Hle].
    + exists (Z.max k m). split; [reflexivity | lia].
Qed.

Lemma date_max_attained (df : DataFrame) (m : Z) :
  Pandas.date_max df = Timestamp m ->
  exists r, In r df /\ date r = Timestamp m.
Proof.
  revert m. induction df as [|x df IH]; intros m Hm; [discriminate|].
  simpl in Hm.
  destruct (date x) as [|k] eqn:Hx, (Pandas.date_max df) as [|j] eqn:Hj;
    simpl in Hm; try discriminate.
  - destruct (IH j eq_refl) as (r & Hr & Hd). injection Hm as <-.
    exists r. split; [right; exact Hr | exact Hd].
  - injection Hm as <-. exists x. split; [left; reflexivity | exact Hx].
  - injection Hm as <-. destruct (Z.max_spec k j) as [[_ ->]|[_ ->]].
    + destruct (IH j eq_refl) as (r & Hr & Hd).
      exists r. split; [right; exact Hr | exact Hd].
    + exists x. split; [left; reflexivity | exact Hx].
Qed.

Lemma date_min_lower (df : DataFrame) (r : Row) (n : Z) :
  In r df -> date r = Timestamp n ->
  exists m, earliest_date df = Timestamp m /\ m <= n.
Proof.
  induction df as [|x df IH]; intros Hr Hd; [destruct Hr|].
  simpl. destruct Hr as [->|Hr].
  - rewrite Hd. destruct (earliest_date df) as [|k]; simpl.
    + exists n. split; [reflexivity | lia].
    + exists (Z.min n k). split; [reflexivity | lia].
  - destruct (IH Hr Hd) as (m & Hm & Hle). rewrite Hm.
    destruct (date x) as [|k]; simpl.
    + exists m. split; [reflexivity | exact Hle].
    + exists (Z.min k m). split; [reflexivity | lia].
Qed.

Lemma eq_ts_Timestamp (d : datetime) (n : Z) :
  Pandas.eq_ts d (Timestamp n) = Pandas.ge_ts d n && Pandas.le_ts d n.
Proof.
  destruct d as [|k]; simpl; [reflexivity|].
  apply eq_true_iff_eq. rewrite andb_true_iff, Z.eqb_eq, !Z.leb_le. lia.
Qed.

End DateBounds.

(** X1: the latest date is the date of some row and no row is dated
    later; it is missing exactly when no row has a date. *)
Theorem latest_date_greatest (df : DataFrame) :
  (forall m, latest_date df = Timestamp m ->
     (exists r, In r df /\ date r = Timestamp m) /\
     (forall r n, In r df -> date r = Timestamp n -> n <= m)) /\
  (latest_date df = NaT <-> forall r, In r df -> date r = NaT).
Proof.
  unfold latest_date. split.
  - intros m Hm. split; [apply date_max_attained; exact Hm|].
    intros r n Hr Hd. destruct (date_max_upper df r n Hr Hd) as (k & Hk & Hle).
    congruence.
  - split.
    + intros Hnat r Hr. destruct (date r) as [|n] eqn:Hd; [reflexivity|].
      destruct (date_max_upper df r n Hr Hd) as (k & Hk & _). congruence.
    + intros Hall. destruct (Pandas.date_max df) as [|m] eqn:Hm; [reflexivity|].
      destruct (date_max_attained df m Hm) as (r & Hr & Hd).
      rewrite (Hall r Hr) in Hd. discriminate.
Qed.

Lemma latest_date_greatest_witness :
  (exists r, In r mixed_df /\ date r = Timestamp day_2021_06_01) /\
  (forall r n, In r mixed_df -> date r = Timestamp n -> n <= day_2021_06_01).
Proof.
  apply (proj1 (latest_date_greatest mixed_df) day_2021_06_01). reflexivity.
Defined.

(** ** The frames of the map and of the bar chart *)

Lemma map_df_filter (df : DataFrame) :
  map_df df = List.filter (fun r => Pandas.eq_ts (date r) (latest_date df)) df.
Proof. unfold map_df. apply loc_map. Qed.

Lemma latest_selection_filter (df : DataFrame) (sel : list string) :
  latest_selection df sel
  = List.filter
      (fun r => Pandas.isin (location r) sel
                && Pandas.eq_ts (date r) (latest_date df)) df.
Proof. unfold latest_selection. apply loc_map. Qed.

Lemma eq_ts_true (d1 d2 : datetime) :
  Pandas.eq_ts d1 d2 = true <-> exists n, d1 = Timestamp n /\ d2 = Timestamp n.
Proof.
  destruct d1 as [|a], d2 as [|b]; simpl; split;
    try discriminate; try (intros (n & H1 & H2); discriminate).
  - intros H. apply Z.eqb_eq in H. subst b. exists a. split; reflexivity.
  - intros (n & H1 & H2). injection H1 as ->. injection H2 as ->.
    apply Z.eqb_refl.
Qed.

Lemma filter_filter {A : Type} (p q : A -> bool) (l : list A) :
  List.filter q (List.filter p l) = List.filter (fun x => p x && q x) l.
Proof.
  induction l as [|x l IH]; simpl; [reflexivity|].
  destruct (p x); simpl; [|exact IH].
  destruct (q x); rewrite IH; reflexivity.
Qed.

Lemma filter_implies_sublist {A : Type} (p q : A -> bool) (l : list A) :
  (forall x, In x l -> p x = true -> q x = true) ->
  sublist (List.filter p l) (List.filter q l).
Proof.
  induction l as [|x l IH]; intros Himp; simpl; [constructor|].
  assert (Hl : sublist (List.filter p l) (List.filter q l)).
  { apply IH. intros y Hy. apply Himp. right. exact Hy. }
  destruct (p x) eqn:Hp.
  - rewrite (Himp x (or_introl eq_refl) Hp). constructor. exact Hl.
  - destruct (q x); [constructor|]; exact Hl.
Qed.

(** X2: the frame of the map is the part of the data set dated at the
    latest date, in the order of the data set; rows without a date and
    rows of earlier days are left out. *)
Theorem map_df_latest_rows (df : DataFrame) :
  sublist (map_df df) df /\
  (forall r, In r (map_df df) <->
             In r df /\
             exists n, date r = Timestamp n /\ latest_date df = Timestamp n).
Proof.
  rewrite map_df_filter. split; [apply filter_sublist|].
  intros r. rewrite filter_In, eq_ts_true. reflexivity.
Qed.

(** X3: as soon as one row of the data set has a date, the frame of the
    map is not empty. *)
Theorem map_df_nonempty (df : DataFrame) (r : Row) (n : Z) :
  In r df -> date r = Timestamp n -> map_df df <> [].
Proof.
  intros Hr Hd. destruct (date_max_upper df r n Hr Hd) as (m & Hm & _).
  destruct (date_max_attained df m Hm) as (x & Hx & Hdx).
  assert (Hin : In x (map_df df)).
  { rewrite map_df_filter. apply filter_In. split; [exact Hx|].
    apply eq_ts_true. exists m. split; [exact Hdx | exact Hm]. }
  intros Hnil. rewrite Hnil in Hin. destruct Hin.
Qed.

Lemma map_df_nonempty_witness : map_df mixed_df <> [].
Proof.
  apply (map_df_nonempty mixed_df india_jan day_2021_01_01).
  - simpl. auto.
  - reflexivity.
Defined.

(** X4: the frame of the vaccination bar chart is the filtered view for
    the one-day interval at the latest date. *)
Theorem latest_selection_is_filtered_view
    (df : DataFrame) (sel : list string) (d : Z) :
  latest_date df = Timestamp d ->
  latest_selection df sel = filtered_df df sel d d.
Proof.
  intros Hd. rewrite latest_selection_filter, filtered_df_filter, Hd.
  apply filter_ext. intros r.
  rewrite eq_ts_Timestamp, andb_assoc. reflexivity.
Qed.

Lemma latest_selection_is_filtered_view_witness :
  latest_selection mixed_df ["World"]
  = filtered_df mixed_df ["World"] day_2021_06_01 day_2021_06_01.
Proof.
  apply (latest_selection_is_filtered_view mixed_df ["World"] day_2021_06_01).
  reflexivity.
Defined.

(** X5: the frame of the bar chart is the frame of the map restricted to
    the selected locations; it is empty when nothing is selected and when
    no row of the data set has a date. *)
Theorem latest_selection_of_map_df (df : DataFrame) (sel : list string) :
  latest_selection df sel
  = List.filter (fun r => Pandas.isin (location r) sel) (map_df df) /\
  sublist (latest_selection df sel) (map_df df) /\
  latest_selection df [] = [] /\
  (latest_date df = NaT -> latest_selection df sel = []).
Proof.
  assert (Heq : latest_selection df sel
    = List.filter (fun r => Pandas.isin (location r) sel) (map_df df)).
  { rewrite latest_selection_filter, map_df_filter, filter_filter.
    apply filter_ext. intros r. apply andb_comm. }
  split; [exact Heq|]. split; [rewrite Heq; apply filter_sublist|]. split.
  - rewrite latest_selection_filter. apply filter_none. intros r. reflexivity.
  - intros Hnat. rewrite latest_selection_filter, Hnat. apply filter_none.
    intros r. destruct (date r); simpl; apply andb_false_r.
Qed.

Lemma latest_selection_of_map_df_witness :
  latest_selection [undated_india] ["India"] = [].
Proof.
  apply (proj2 (proj2 (proj2
           (latest_selection_of_map_df [undated_india] ["India"])))).
  reflexivity.
Defined.

(** ** Algebra of the filter *)

(** X6: with the bounds at the earliest and the latest date of the data
    set, the values the program gives the date picker as its default
    range, the view keeps every dated row of the selected locations. *)
Theorem filtered_df_full_range
    (df : DataFrame) (sel : list string) (s e : Z) :
  earliest_date df = Timestamp s -> latest_date df = Timestamp e ->
  forall r, In r (filtered_df df sel s e) <->
            In r df /\ In (location r) sel /\ date r <> NaT.
Proof.
  intros Hs He r. rewrite filtered_df_filter, filter_In.
  rewrite <- andb_assoc, andb_true_iff, isin_In, between_in_interval.
  split.
  - intros (Hr & Hsel & n & Hn & _). repeat split; congruence.
  - intros (Hr & Hsel & Hd). repeat split; try assumption.
    destruct (date r) as [|n] eqn:Hn; [congruence|].
    exists n. split; [reflexivity|].
    destruct (date_min_lower df r n Hr Hn) as (a & Ha & Hle).
    destruct (date_max_upper df r n Hr Hn) as (b & Hb & Hge).
    unfold latest_date in He. split; congruence.
Qed.

Lemma filtered_df_full_range_witness :
  In world_jan (filtered_df mixed_df ["World"] day_2021_01_01 day_2021_06_01).
Proof.
  apply (filtered_df_full_range
           mixed_df ["World"] day_2021_01_01 day_2021_06_01);
    [reflexivity | reflexivity |].
  split; [simpl; auto|]. split; [simpl; auto | discriminate].
Defined.

Lemma mask_row_true (r : Row) (sel : list string) (s e : Z) :
  Pandas.isin (location r) sel && Pandas.ge_ts (date r) s
  && Pandas.le_ts (date r) e = true
  <-> In (location r) sel /\ in_interval (date r) s e.
Proof.
  rewrite <- andb_assoc, andb_true_iff, isin_In, between_in_interval.
  reflexivity.
Qed.

(** X7: widening the selection or the interval never loses a row: the
    narrower view is a subsequence of the wider one. *)
Theorem filtered_df_monotone
    (df : DataFrame) (sel sel' : list string) (s e s' e' : Z) :
  (forall x, In x sel -> In x sel') -> s' <= s -> e <= e' ->
  sublist (filtered_df df sel s e) (filtered_df df sel' s' e').
Proof.
  intros Hsel Hs He. rewrite !filtered_df_filter.
  apply filter_implies_sublist. intros r _.
  rewrite !mask_row_true.
  intros (Hin & n & Hn & Hle). split; [apply Hsel; exact Hin|].
  exists n. split; [exact Hn | lia].
Qed.

Lemma filtered_df_monotone_witness :
  sublist
    (filtered_df mixed_df ["World"] day_2021_06_01 day_2021_06_01)
    (filtered_df mixed_df ["India"; "World"] day_2021_01_01 day_2021_06_01).
Proof.
  apply filtered_df_monotone.
  - simpl. tauto.
  - vm_compute. discriminate.
  - vm_compute. discriminate.
Defined.

(** X8: the filter works row by row: the view of two data sets put one
    after the other is the two views put one after the other. *)
Theorem filtered_df_app
    (df1 df2 : DataFrame) (sel : list string) (s e : Z) :
  filtered_df (df1 ++ df2)%list sel s e
  = (filtered_df df1 sel s e ++ filtered_df df2 sel s e)%list.
Proof. rewrite !filtered_df_filter. apply List.filter_app. Qed.

Lemma isin_filter (x : string) (sel sel' : list string) :
  Pandas.isin x (List.filter (fun y => Pandas.isin y sel') sel)
  = Pandas.isin x sel && Pandas.isin x sel'.
Proof.
  apply eq_true_iff_eq.
  rewrite andb_true_iff, !isin_In, filter_In, isin_In. reflexivity.
Qed.

(** X9: filtering a view again is filtering the data set once, by the
    locations common to both selections and the intersection of the two
    intervals; in particular filtering twice by the same criteria changes
    nothing. *)
Theorem filtered_df_twice
    (df : DataFrame) (sel sel' : list string) (s e s' e' : Z) :
  filtered_df (filtered_df df sel s e) sel' s' e'
  = filtered_df df (List.filter (fun x => Pandas.isin x sel') sel)
      (Z.max s s') (Z.min e e') /\
  filtered_df (filtered_df df sel s e) sel s e = filtered_df df sel s e.
Proof.
  assert (Hpt : forall r sl sl' a b a' b',
    (Pandas.isin (location r) sl && Pandas.ge_ts (date r) a
     && Pandas.le_ts (date r) b)
    && (Pandas.isin (location r) sl' && Pandas.ge_ts (date r) a'
        && Pandas.le_ts (date r) b')
    = Pandas.isin (location r) (List.filter (fun x => Pandas.isin x sl') sl)
      && Pandas.ge_ts (date r) (Z.max a a')
      && Pandas.le_ts (date r) (Z.min b b')).
  { intros r sl sl' a b a' b'. rewrite isin_filter.
    apply eq_true_iff_eq. destruct (date r) as [|n]; simpl.
    - rewrite !andb_false_r. reflexivity.
    - rewrite !andb_true_iff, !Z.leb_le, Z.max_lub_iff, Z.min_glb_iff.
      tauto. }
  split.
  - rewrite !filtered_df_filter, filter_filter. apply filter_ext.
    intros r. apply Hpt.
  - rewrite !filtered_df_filter, filter_filter. apply filter_ext.
    intros r. destruct (Pandas.isin (location r) sel && Pandas.ge_ts (date r) s
                        && Pandas.le_ts (date r) e); reflexivity.
Qed.

(** X10: the view depends on the set of selected names only: their
    order and repetitions in the selection do not matter. *)
Theorem filtered_df_selection_as_set
    (df : DataFrame) (sel sel' : list string) (s e : Z) :
  (forall x, In x sel <-> In x sel') ->
  filtered_df df sel s e = filtered_df df sel' s e.
Proof.
  intros Hset. apply filtered_df_selection_ext. intros r _.
  apply eq_true_iff_eq. rewrite !isin_In. apply Hset.
Qed.

Lemma filtered_df_selection_as_set_witness :
  filtered_df mixed_df ["World"; "India"; "World"] day_2021_01_01 day_2021_06_01
  = filtered_df mixed_df ["India"; "World"] day_2021_01_01 day_2021_06_01.
Proof.
  apply filtered_df_selection_as_set. intros x. simpl. tauto.
Defined.

(** X11: dropping the rows without testing metrics and filtering commute:
    the frame of the scatter chart is also the filtered view of the data
    set cleared of those rows, and it is a subsequence of the data set. *)
Theorem fig_test_data_commutes
    (df : DataFrame) (sel : list string) (s e : Z) :
  fig_test_data df sel s e
  = filtered_df
      (Pandas.dropna [new_tests_per_thousand; positive_rate] df) sel s e /\
  sublist (fig_test_data df sel s e) df.
Proof.
  unfold fig_test_data, Pandas.dropna. rewrite !filtered_df_filter. split.
  - rewrite !filter_filter. apply filter_ext. intros r. apply andb_comm.
  - rewrite filter_filter. apply filter_sublist.
Qed.

(** ** The options of the country selector *)

Section SelectorOptions.

Lemma insert_sorted_Sorted (x : string) (l : list string) :
  Sorted str_le l -> Sorted str_le (insert_sorted x l).
Proof.
  induction l as [|y l IH]; intros Hs; simpl.
  - repeat constructor.
  - destruct (String.leb x y) eqn:Hxy.
    + constructor; [exact Hs|]. constructor. exact Hxy.
    + inversion Hs as [|? ? Hl Hhd]; subst.
      constructor; [apply IH; exact Hl|].
      assert (Hyx : str_le y x).
      { destruct (String.leb_total x y) as [H|H]; [congruence | exact H]. }
      destruct l as [|z l]; simpl.
      * constructor. exact Hyx.
      * destruct (String.leb x z); constructor; [exact Hyx|].
        inversion Hhd; assumption.
Qed.

Lemma sorted_Sorted (l : list string) : Sorted str_le (sorted l).
Proof.
  induction l as [|x l IH]; simpl; [constructor|].
  apply insert_sorted_Sorted. exact IH.
Qed.

Lemma insert_sorted_NoDup (x : string) (l : list string) :
  ~ In x l -> List.NoDup l -> List.NoDup (insert_sorted x l).
Proof.
  induction l as [|y l IH]; intros Hx Hnd; simpl.
  - constructor; [intros []|constructor].
  - destruct (String.leb x y).
    + constructor; assumption.
    + inversion Hnd as [|? ? Hy Hl]; subst. constructor.
      * rewrite in_insert_sorted. intros [->|Hin]; [|contradiction].
        apply Hx. left. reflexivity.
      * apply IH; [|exact Hl]. intros Hin. apply Hx. right. exact Hin.
Qed.

Lemma sorted_NoDup (l : list string) : List.NoDup l -> List.NoDup (sorted l).
Proof.
  induction 1 as [|x l Hx Hl IH]; simpl; [constructor|].
  apply insert_sorted_NoDup; [|exact IH]. rewrite in_sorted. exact Hx.
Qed.

Lemma unique_NoDup (l : list string) : List.NoDup (Pandas.unique l).
Proof.
  induction l as [|x l IH]; simpl; [constructor|]. constructor.
  - rewrite filter_In, negb_true_iff, String.eqb_neq. tauto.
  - apply List.NoDup_filter. exact IH.
Qed.

End SelectorOptions.

(** X12: the options of the country selector are exactly the locations
    that occur in the data set, each listed once, in ascending order. *)
Theorem locations_sorted_distinct (df : DataFrame) :
  (forall x, In x (locations df) <-> exists r, In r df /\ location r = x) /\
  List.NoDup (locations df) /\
  Sorted str_le (locations df).
Proof.
  unfold locations. split; [|split].
  - intros x. rewrite in_sorted, in_unique, in_map_iff. split.
    + intros (r & Hl & Hr). exists r. split; assumption.
    + intros (r & Hr & Hl). exists r. split; assumption.
  - apply sorted_NoDup, unique_NoDup.
  - apply sorted_Sorted.
Qed.

(** ** More on the latest global row *)

Section GlobalRow.

Lemma iloc_last_filter_split (p : Row -> bool) (df : DataFrame) (g : Row) :
  Pandas.iloc_last (List.filter p df) = inr g ->
  exists pre post,
    df = (pre ++ g :: post)%list /\ p g = true /\ List.filter p post = [].
Proof.
  induction df as [|x df IH]; [discriminate|]. simpl.
  destruct (p x) eqn:Hpx.
  - destruct (List.filter p df) as [|y l] eqn:Hf.
    + simpl. intros H. injection H as <-.
      exists [], df. repeat split; assumption.
    + intros H. destruct (IH H) as (pre & post & -> & Hg & Hpost).
      exists (x :: pre), post. repeat split; assumption.
  - intros H. destruct (IH H) as (pre & post & -> & Hg & Hpost).
    exists (x :: pre), post. repeat split; assumption.
Qed.

End GlobalRow.

(** X13: the lookup of the global row is positional: it returns [g]
    exactly when [g] is a row of the location "World" after which the data
    set holds no other row of that location, whatever the dates are. *)
Theorem global_data_last_world_row (df : DataFrame) (g : Row) :
  global_data df = inr g <->
  exists pre post,
    df = (pre ++ g :: post)%list /\ location g = "World" /\
    forall r, In r post -> location r <> "World".
Proof.
  split.
  - rewrite global_data_world_rows. unfold world_rows. intros H.
    destruct (iloc_last_filter_split _ df g H) as (pre & post & -> & Hg & Hp).
    exists pre, post. split; [reflexivity|]. split.
    + apply String.eqb_eq. exact Hg.
    + intros r Hr Hw.
      assert (Hin : In r (List.filter
                (fun r => String.eqb (location r) "World") post)).
      { apply filter_In. split; [exact Hr|]. rewrite Hw. reflexivity. }
      rewrite Hp in Hin. destruct Hin.
  - intros (pre & post & -> & Hg & Hpost).
    apply global_data_last_world; [exact Hg|].
    unfold world_rows. apply filter_none_in. intros r Hr.
    apply String.eqb_neq. apply Hpost. exact Hr.
Qed.

Lemma latest_date_NaT_iff (df : DataFrame) :
  latest_date df = NaT <-> forall r, In r df -> date r = NaT.
Proof.
  unfold latest_date. split.
  - intros Hnat r Hr. destruct (date r) as [|n] eqn:Hd; [reflexivity|].
    destruct (date_max_upper df r n Hr Hd) as (k & Hk & _). congruence.
  - intros Hall. destruct (Pandas.date_max df) as [|m] eqn:Hm; [reflexivity|].
    destruct (date_max_attained df m Hm) as (r & Hr & Hd).
    rewrite (Hall r Hr) in Hd. discriminate.
Qed.

Lemma global_data_inr_iff (df : DataFrame) :
  (exists g, global_data df = inr g) <->
  (exists r, In r df /\ location r = "World").
Proof.
  rewrite global_data_world_rows. split.
  - intros (g & Hg). apply iloc_last_In in Hg.
    unfold world_rows in Hg. apply filter_In in Hg. destruct Hg as [Hr Hw].
    exists g. split; [exact Hr|]. apply String.eqb_eq. exact Hw.
  - intros (r & Hr & Hw).
    destruct (Pandas.iloc_last (world_rows df)) as [e|g] eqn:Hl;
      [|exists g; reflexivity].
    apply iloc_last_error in Hl. destruct Hl as [Hnil _].
    assert (Hin : In r (world_rows df)).
    { unfold world_rows. apply filter_In. split; [exact Hr|].
      rewrite Hw. reflexivity. }
    rewrite Hnil in Hin. destruct Hin.
Qed.

Lemma global_data_inl_iff (df : DataFrame) (e : exn) :
  global_data df = inl e <->
  e = IndexError /\ forall r, In r df -> location r <> "World".
Proof.
  rewrite global_data_world_rows, iloc_last_error. unfold world_rows. split.
  - intros [Hnil ->]. split; [reflexivity|]. intros r Hr Hw.
    assert (Hin : In r (List.filter
              (fun r => String.eqb (location r) "World") df)).
    { apply filter_In. split; [exact Hr|]. rewrite Hw. reflexivity. }
    rewrite Hnil in Hin. destruct Hin.
  - intros [-> Hno]. split; [|reflexivity].
    apply filter_none_in. intros r Hr. apply String.eqb_neq, Hno, Hr.
Qed.

(** X14: the summary cards are written exactly when the data set has a
    row of the location "World" and a row with a date.  Without a row of
    that location the script stops with the IndexError of the lookup;
    with such a row but no date at all it stops with the ValueError of
    the header; it stops with no other exception. *)
Theorem summary_cards_outcome (df : DataFrame) :
  ((exists cards, summary_cards df = inr cards) <->
   (exists r, In r df /\ location r = "World") /\
   (exists r, In r df /\ date r <> NaT)) /\
  (forall e, summary_cards df = inl e <->
     (e = IndexError /\ forall r, In r df -> location r <> "World") \/
     (e = ValueError /\ (exists r, In r df /\ location r = "World") /\
      forall r, In r df -> date r = NaT)).
Proof.
  pose proof (global_data_inr_iff df) as Hworld.
  pose proof (latest_date_NaT_iff df) as Hnat.
  unfold summary_cards.
  destruct (global_data df) as [e0|g] eqn:Hg.
  - apply global_data_inl_iff in Hg. destruct Hg as [-> Hno]. split.
    + split; [intros (cards & H); discriminate|].
      intros [(r & Hr & Hw) _]. destruct (Hno r Hr Hw).
    + intros e. split.
      * intros H. injection H as <-. left. split; [reflexivity | exact Hno].
      * intros [[-> _] | (_ & (r & Hr & Hw) & _)]; [reflexivity|].
        destruct (Hno r Hr Hw).
  - assert (Hw : exists r, In r df /\ location r = "World")
      by (apply Hworld; exists g; reflexivity).
    destruct (last_updated df) as [e1|text] eqn:Hh.
    + apply last_updated_error in Hh. destruct Hh as [Hd ->].
      pose proof (proj1 Hnat Hd) as Hall. split.
      * split; [intros (cards & H); discriminate|].
        intros [_ (r & Hr & Hdr)]. destruct (Hdr (Hall r Hr)).
      * intros e. split.
        -- intros H. injection H as <-. right. repeat split; assumption.
        -- intros [[-> Hno] | (-> & _)]; [|reflexivity].
           destruct Hw as (r & Hr & Hwr). destruct (Hno r Hr Hwr).
    + assert (Hd : latest_date df <> NaT).
      { intros Hd. assert (He : last_updated df = inl ValueError)
          by (apply last_updated_error; split; [exact Hd | reflexivity]).
        congruence. }
      split.
      * split; [|intros _; eexists; reflexivity].
        intros _. split; [exact Hw|].
        destruct (latest_date df) as [|m] eqn:Hm; [congruence|].
        destruct (date_max_attained df m Hm) as (r & Hr & Hdr).
        exists r. split; [exact Hr | congruence].
      * intros e. split; [discriminate|].
        intros [[_ Hno] | (_ & _ & Hall)].
        -- destruct Hw as (r & Hr & Hwr). destruct (Hno r Hr Hwr).
        -- destruct Hd. apply Hnat. exact Hall.
Qed.

(** X15: when the rows of the location "World" appear in the order of
    their dates, the row that the lookup returns is dated no earlier than
    any other row of that location. *)
Theorem global_data_latest_when_sorted (df : DataFrame) (g : Row) :
  StronglySorted date_le (world_rows df) -> global_data df = inr g ->
  location g = "World" /\
  forall r, In r df -> location r = "World" -> r = g \/ date_le r g.
Proof.
  intros Hs Hg. split.
  - rewrite global_data_world_rows in Hg. apply iloc_last_In in Hg.
    unfold world_rows in Hg. apply filter_In in Hg.
    apply String.eqb_eq. apply Hg.
  - apply global_data_sorted_max; assumption.
Qed.

Lemma global_data_latest_when_sorted_witness :
  location world_jun = "World" /\
  forall r, In r sample_df -> location r = "World" ->
            r = world_jun \/ date_le r world_jun.
Proof.
  apply (global_data_latest_when_sorted sample_df world_jun).
  - unfold world_rows. simpl. repeat constructor.
    unfold date_le. simpl. vm_compute. discriminate.
  - reflexivity.
Defined.

(** ** More on the number formatter *)

Section Rendering.

Lemma round_half_even_exact (k d : Z) :
  0 < d -> round_half_even (k * d) d = k.
Proof.
  intros Hd. unfold round_half_even.
  rewrite Z.mod_mul, Z.div_mul by lia.
  replace (2 * 0) with 0 by reflexivity.
  destruct (Z.compare_spec 0 d); lia.
Qed.

Lemma below_million_below_billion (x : float64) :
  ge x (of_Z 1000000) = false -> ge x (of_Z 1000000000) = false.
Proof.
  intros H6. destruct (ge x (of_Z 1000000000)) eqn:H9; [|reflexivity].
  apply ge_billion_ge_million in H9. congruence.
Qed.

Lemma just_below_million_eq :
  just_below_million = SpecFloat.S754_finite false 8589930297032704 (-33).
Proof. reflexivity. Qed.

(** The cells from 999999.5 up to, but not including, one million. *)
Lemma last_half_below_million (x : float64) :
  ge x just_below_million = true -> ge x (of_Z 1000000) = false ->
  exists m, x = SpecFloat.S754_finite false m (-33) /\
            8589930297032704 <= Z.pos m < 8589934592000000.
Proof.
  rewrite just_below_million_eq, of_Z_million. unfold ge, SpecFloat.SFleb.
  destruct x as [s|s| |s m e].
  - discriminate.
  - destruct s; discriminate.
  - discriminate.
  - destruct s; unfold SpecFloat.SFcompare; cbv beta iota; [discriminate|].
    change (Pos.compare_cont Eq 8589930297032704 m)
      with (Pos.compare 8589930297032704 m).
    change (Pos.compare_cont Eq 8589934592000000 m)
      with (Pos.compare 8589934592000000 m).
    destruct (Z.compare_spec (-33) e) as [He|He|He]; try discriminate.
    subst e.
    destruct (Pos.compare_spec 8589930297032704 m) as [Hlo|Hlo|Hlo];
      destruct (Pos.compare_spec 8589934592000000 m) as [Hhi|Hhi|Hhi];
      intros H1 H2; try discriminate H1; try discriminate H2;
      exists m; (split; [reflexivity|]).
    + rewrite <- Hlo. split; [apply Z.le_refl | reflexivity].
    + split; [apply Pos2Z.pos_le_pos, Pos.lt_le_incl, Hlo|].
      apply Pos2Z.pos_lt_pos, Hhi.
Qed.

End Rendering.

(** X16: a cell below one million whose value is an integer is written as
    that integer, digit for digit, with a comma between groups of three
    digits and a minus sign when the cell is negative; nothing is
    rounded. *)
Theorem format_num_integer_exact (x : float64) (k : Z) :
  integer_value x k -> ge x (of_Z 1000000) = false ->
  format_num x = sign_prefix (signbit x) ++ group_thousands (decimal k).
Proof.
  intros Hk H6. unfold format_num.
  rewrite (below_million_below_billion x H6), H6.
  destruct x as [s|s| |s m e]; simpl in Hk; try contradiction.
  - subst k. reflexivity.
  - unfold format_f, fixed, scaled_digits, signbit.
    change (10 ^ Z.of_nat 0) with 1. rewrite Z.mul_1_r.
    destruct e as [|p|p]; simpl in Hk.
    + subst k. rewrite Z.div_1_r. reflexivity.
    + subst k. rewrite Z.div_1_r. reflexivity.
    + rewrite Hk, round_half_even_exact by (apply Z.pow_pos_nonneg; lia).
      rewrite Z.div_1_r. reflexivity.
Qed.

Lemma format_num_integer_exact_witness :
  format_num (of_Z (-12345)) = "-" ++ group_thousands (decimal 12345).
Proof.
  apply (format_num_integer_exact (of_Z (-12345)) 12345); reflexivity.
Defined.

(** X17: the cells from 999999.5 up to one million fall below the first
    threshold and are rounded up by the grouped rendering: they are shown
    as "1,000,000", not as "1.00M". *)
Theorem format_num_rounds_up_to_million (x : float64) :
  ge x just_below_million = true -> ge x (of_Z 1000000) = false ->
  format_num x = "1,000,000".
Proof.
  intros Hlo Hhi. unfold format_num.
  rewrite (below_million_below_billion x Hhi), Hhi.
  destruct (last_half_below_million x Hlo Hhi) as (m & -> & Hm).
  assert (Hd : scaled_digits 0 m (-33) = 1000000).
  { unfold scaled_digits, round_half_even.
    change (10 ^ Z.of_nat 0) with 1. rewrite Z.mul_1_r.
    change (2 ^ Z.pos 33) with 8589934592.
    pose proof (Z.div_mod (Z.pos m) 8589934592 ltac:(lia)) as Hdm.
    pose proof (Z.mod_pos_bound (Z.pos m) 8589934592 ltac:(lia)) as Hb.
    assert (Hq : Z.pos m / 8589934592 = 999999) by lia.
    rewrite Hq in *.
    destruct (Z.compare_spec (2 * (Z.pos m mod 8589934592)) 8589934592);
      [reflexivity | lia | reflexivity]. }
  unfold format_f. rewrite Hd. reflexivity.
Qed.

Lemma format_num_rounds_up_to_million_witness :
  format_num just_below_million = "1,000,000".
Proof.
  apply format_num_rounds_up_to_million; reflexivity.
Defined.

(** X18: with a positive number of cases, a snapshot without deaths shows
    the mortality "0.00%"; a snapshot whose deaths are missing shows
    "nan%" whatever its cases are. *)
Theorem mortality_card_no_or_missing_deaths (g : Row) :
  (forall m e, total_deaths g = SpecFloat.S754_zero false ->
               total_cases g = SpecFloat.S754_finite false m e ->
               mortality_card g = "0.00%") /\
  (missing (total_deaths g) -> mortality_card g = "nan%").
Proof.
  unfold mortality_card, mortality. split.
  - intros m e -> ->. reflexivity.
  - intros ->. reflexivity.
Qed.

Lemma mortality_card_no_or_missing_deaths_witness :
  mortality_card (row_of "World" NaT (of_Z 1000) (of_Z 0)) = "0.00%" /\
  mortality_card (row_of "World" NaT (of_Z 1000) nan) = "nan%".
Proof.
  split.
  - eapply (proj1 (mortality_card_no_or_missing_deaths
                     (row_of "World" NaT (of_Z 1000) (of_Z 0))));
      reflexivity.
  - apply (proj2 (mortality_card_no_or_missing_deaths
                    (row_of "World" NaT (of_Z 1000) nan))).
    reflexivity.
Defined.

(** ** The text of the mortality card *)

Section Hundredths.

Lemma round_half_even_nearest (n d : Z) :
  0 <= n -> 0 < d ->
  0 <= round_half_even n d /\
  2 * Z.abs (round_half_even n d * d - n) <= d /\
  (2 * Z.abs (round_half_even n d * d - n) = d ->
   Z.even (round_half_even n d) = true).
Proof.
  intros Hn Hd. unfold round_half_even.
  pose proof (Z.div_mod n d ltac:(lia)) as Hdm.
  pose proof (Z.mod_pos_bound n d Hd) as Hb.
  pose proof (Z.div_pos n d Hn Hd) as Hq.
  set (q := n / d) in *. set (r := n mod d) in *.
  assert (E0 : q * d - n = - r) by lia.
  assert (E1 : (q + 1) * d - n = d - r) by lia.
  destruct (Z.compare_spec (2 * r) d) as [He|Hlt|Hgt].
  - destruct (Z.even q) eqn:Hev.
    + rewrite E0. split; [lia|]. split; [lia|]. intros _. exact Hev.
    + rewrite E1. split; [lia|]. split; [lia|]. intros _.
      rewrite Z.add_1_r, Z.even_succ, <- Z.negb_even, Hev. reflexivity.
  - rewrite E0. split; [lia|]. split; lia.
  - rewrite E1. split; [lia|]. split; lia.
Qed.

Lemma scaled_digits_nearest (s : bool) (m : positive) (e : Z) :
  0 <= scaled_digits 2 m e /\
  nearest_hundredths (SpecFloat.S754_finite s m e) (scaled_digits 2 m e).
Proof.
  unfold scaled_digits, nearest_hundredths.
  change (10 ^ Z.of_nat 2) with 100. rewrite (Z.mul_comm (Z.pos m) 100).
  destruct e as [|p|p].
  - simpl (0 <? 0)%Z. cbv iota. split; [lia | reflexivity].
  - change (Z.pos p <? 0)%Z with false. cbv iota.
    split; [|reflexivity].
    apply Z.mul_nonneg_nonneg; [lia|]. apply Z.pow_nonneg. lia.
  - change (Z.neg p <? 0)%Z with true. cbv iota.
    change (- Z.neg p) with (Z.pos p).
    apply round_half_even_nearest; [lia|]. apply Z.pow_pos_nonneg; lia.
Qed.

Lemma read_decimal_decimal (n : Z) :
  0 <= n -> read_decimal (decimal n) = Some n.
Proof.
  intros Hn. unfold read_decimal, decimal.
  rewrite NilZero.usu.
  - rewrite DecimalN.Unsigned.of_to, Z2N.id by exact Hn. reflexivity.
  - destruct (Z.to_N n) as [|p]; [discriminate|].
    apply DecimalPos.Unsigned.to_uint_nonnil.
Qed.

Lemma read_two_digits_table :
  forallb
    (fun j =>
       let text := pad_left 2 (decimal (Z.of_nat j)) in
       Nat.eqb (String.length text) 2
       && match read_decimal text with
          | Some v => (v =? Z.of_nat j)%Z
          | None => false
          end)
    (List.seq 0 100) = true.
Proof. vm_compute. reflexivity. Qed.

Lemma read_two_digits (k : Z) :
  0 <= k < 100 ->
  String.length (pad_left 2 (decimal k)) = 2%nat /\
  read_decimal (pad_left 2 (decimal k)) = Some k.
Proof.
  intros Hk. pose proof read_two_digits_table as Htab.
  rewrite forallb_forall in Htab.
  specialize (Htab (Z.to_nat k)). rewrite Z2Nat.id in Htab by lia.
  assert (Hin : In (Z.to_nat k) (List.seq 0 100)) by (apply in_seq; lia).
  apply Htab in Hin. cbv zeta in Hin.
  apply andb_true_iff in Hin. destruct Hin as [Hlen Hread].
  split; [apply Nat.eqb_eq; exact Hlen|].
  destruct (read_decimal (pad_left 2 (decimal k))) as [v|]; [|discriminate].
  apply Z.eqb_eq in Hread. congruence.
Qed.

Lemma fixed_two_hundredths (n : Z) :
  0 <= n ->
  exists ip frac,
    fixed false 2 n = ip ++ "." ++ frac /\
    read_decimal ip = Some (n / 100) /\
    String.length frac = 2%nat /\
    read_decimal frac = Some (n mod 100).
Proof.
  intros Hn. exists (decimal (n / 100)), (pad_left 2 (decimal (n mod 100))).
  split; [reflexivity|]. split.
  - apply read_decimal_decimal. apply Z.div_pos; lia.
  - apply read_two_digits. apply Z.mod_pos_bound. lia.
Qed.

End Hundredths.

(** X19: when the header is written and the rate of the row returned by
    the lookup is finite, the fourth card reads: a minus sign for a
    negative rate, the digits of a whole number, a point, two digits and
    a percent sign, and the number of hundredths so written is the
    integer nearest to a hundred times the magnitude of the rate, the
    even one of two nearest.  So 1 death for 3 cases reads "33.33%", 2 for
    3 "66.67%", 1 for 32 "3.12%" and 3 for 32 "9.38%". *)
Theorem mortality_card_hundredths (df : DataFrame) (g : Row) (d : Z) :
  (global_data df = inr g -> latest_date df = Timestamp d ->
   is_finite (mortality g) = true ->
   exists ip frac n,
     summary_cards df
     = inr [format_num (total_cases g); format_num (total_deaths g);
            format_num (total_vaccinations g);
            sign_prefix (signbit (mortality g)) ++ ip ++ "." ++ frac ++ "%"] /\
     read_decimal ip = Some (n / 100) /\
     String.length frac = 2%nat /\
     read_decimal frac = Some (n mod 100) /\
     nearest_hundredths (mortality g) n) /\
  (total_deaths g = of_Z 1 -> total_cases g = of_Z 3 ->
   mortality_card g = "33.33%") /\
  (total_deaths g = of_Z 2 -> total_cases g = of_Z 3 ->
   mortality_card g = "66.67%") /\
  (total_deaths g = of_Z 1 -> total_cases g = of_Z 32 ->
   mortality_card g = "3.12%") /\
  (total_deaths g = of_Z 3 -> total_cases g = of_Z 32 ->
   mortality_card g = "9.38%").
Proof.
  split.
  - intros Hg Hd Hfin. rewrite (summary_cards_dated df g d Hg Hd).
    unfold mortality_card.
    assert (Hshape : exists ip frac n,
      format_f false 2 (mortality g)
      = sign_prefix (signbit (mortality g)) ++ ip ++ "." ++ frac /\
      read_decimal ip = Some (n / 100) /\
      String.length frac = 2%nat /\
      read_decimal frac = Some (n mod 100) /\
      nearest_hundredths (mortality g) n).
    { destruct (mortality g) as [s|s| |s m e]; try discriminate.
      - destruct (fixed_two_hundredths 0 ltac:(lia))
          as (ip & frac & Heq & Hip & Hlen & Hfrac).
        exists ip, frac, 0. unfold format_f. rewrite Heq.
        repeat split; assumption || reflexivity.
      - destruct (scaled_digits_nearest s m e) as [Hpos Hnear].
        destruct (fixed_two_hundredths (scaled_digits 2 m e) Hpos)
          as (ip & frac & Heq & Hip & Hlen & Hfrac).
        exists ip, frac, (scaled_digits 2 m e). unfold format_f. rewrite Heq.
        repeat split; assumption || reflexivity. }
    destruct Hshape as (ip & frac & n & Heq & Hip & Hlen & Hfrac & Hnear).
    exists ip, frac, n. rewrite Heq, !append_assoc.
    repeat split; assumption.
  - unfold mortality_card, mortality.
    repeat split; intros -> ->; reflexivity.
Qed.

Lemma mortality_card_hundredths_witness :
  mortality_card (row_of "World" NaT (of_Z 32) (of_Z 3)) = "9.38%" /\
  exists ip frac n,
    summary_cards sample_df
    = inr ["2,000"; "80"; "nan"; "" ++ ip ++ "." ++ frac ++ "%"] /\
    read_decimal ip = Some (n / 100) /\
    String.length frac = 2%nat /\
    read_decimal frac = Some (n mod 100) /\
    nearest_hundredths (mortality world_jun) n.
Proof.
  split.
  - apply (proj2 (proj2 (proj2 (proj2
             (mortality_card_hundredths
                [] (row_of "World" NaT (of_Z 32) (of_Z 3)) 0)))));
      reflexivity.
  - apply (proj1 (mortality_card_hundredths
                    sample_df world_jun day_2021_06_01)); reflexivity.
Defined.
